(** * The [gitlab_instance_variable] resource

    A shallow embedding of
    [internal/provider/resource_gitlab_instance_variable.go]: the schema of
    the resource and its four handlers (Create, Read, Update, Delete), written
    as programs that talk to the GitLab instance-variable service through
    explicit requests, together with the properties of the handlers. *)

From Stdlib Require Import ZArith.
From stdpp Require Import gmap strings list fin_maps.

Local Open Scope Z_scope.
Local Open Scope string_scope.

(** ** net/http *)

Module http.
(** [http.StatusNotFound] *)
Definition StatusNotFound : Z := 404.
End http.

(** ** go-gitlab: the types of the instance-variable service *)

Module gitlab.

(** [type VariableTypeValue string] *)
Definition VariableTypeValue : Type := string.
Definition EnvVariableType : VariableTypeValue := "env_var".
Definition FileVariableType : VariableTypeValue := "file".

(** [*gitlab.InstanceVariable], the object the service returns. *)
Record InstanceVariable : Type := {
  Key : string;
  Value : string;
  VariableType : VariableTypeValue;
  Protected : bool;
  Masked : bool
}.

(** [*gitlab.Response]; the handlers only look at the status code. *)
Record Response : Type := { StatusCode : Z }.

(** A Go [error] value, kept as its message. *)
Definition error : Type := string.

(** [gitlab.CreateInstanceVariableOptions]: every field is a pointer, so
    [None] is a field left out of the request. *)
Module CreateInstanceVariableOptions.
Record t : Type := {
  Key : option string;
  Value : option string;
  VariableType : option VariableTypeValue;
  Protected : option bool;
  Masked : option bool
}.
End CreateInstanceVariableOptions.

(** [gitlab.UpdateInstanceVariableOptions]: the type has no [Key] field. *)
Module UpdateInstanceVariableOptions.
Record t : Type := {
  Value : option string;
  VariableType : option VariableTypeValue;
  Protected : option bool;
  Masked : option bool
}.
End UpdateInstanceVariableOptions.

(** The calls of [client.InstanceVariables] the handlers make. *)
Inductive Request : Type :=
| CreateVariable (opt : CreateInstanceVariableOptions.t)
| GetVariable (key : string)
| UpdateVariable (key : string) (opt : UpdateInstanceVariableOptions.t)
| RemoveVariable (key : string).

(** What a call returns: a variable pointer, a response pointer and an
    error for create, get and update; a response pointer and an error for
    remove.  A [nil] pointer or a [nil] error is [None]. *)
Definition VariableReply : Type :=
  (option InstanceVariable * option Response * option error)%type.
Definition RemoveReply : Type := (option Response * option error)%type.

Definition Reply (q : Request) : Type :=
  match q with
  | RemoveVariable _ => RemoveReply
  | _ => VariableReply
  end.

End gitlab.

(** ** terraform-plugin-sdk: schema, resource data and diagnostics *)

Module schema.

Inductive ValueType : Type := TypeString | TypeBool.

(** The values that travel through [d.Get] and [d.Set] as [interface{}]. *)
Inductive Value : Type :=
| VString (s : string)
| VBool (b : bool).

Definition typeOf (v : Value) : ValueType :=
  match v with
  | VString _ => TypeString
  | VBool _ => TypeBool
  end.

Definition zeroValue (t : ValueType) : Value :=
  match t with
  | TypeString => VString ""
  | TypeBool => VBool false
  end.

#[global] Instance ValueType_eq_dec : EqDecision ValueType.
Proof. solve_decision. Defined.

#[global] Instance Value_eq_dec : EqDecision Value.
Proof. solve_decision. Defined.

(** [schema.Schema], with the attributes the resource sets. *)
Record Schema : Type := {
  Type_ : ValueType;
  ForceNew : bool;
  Required : bool;
  Optional : bool;
  Sensitive : bool;
  Default : option Value
}.

End schema.

Module diag.
Inductive Severity : Type := Error | Warning.
Record Diagnostic : Type := { severity : Severity; Summary : string }.
(** [diag.Diagnostics]; the handlers return [nil] for success. *)
Definition Diagnostics : Type := list Diagnostic.
(** [diag.FromErr] *)
Definition FromErr (err : gitlab.error) : Diagnostics :=
  [ {| severity := Error; Summary := err |} ].
End diag.

Import schema.

(** The [Schema] map of the resource (source lines 27-60). *)
Definition resourceSchema : gmap string Schema :=
  <[ "key" := {| Type_ := TypeString; ForceNew := true; Required := true;
                 Optional := false; Sensitive := false; Default := None |} ]>
  (<[ "value" := {| Type_ := TypeString; ForceNew := false; Required := true;
                    Optional := false; Sensitive := true; Default := None |} ]>
  (<[ "variable_type" :=
        {| Type_ := TypeString; ForceNew := false; Required := false;
           Optional := true; Sensitive := false;
           Default := Some (VString "env_var") |} ]>
  (<[ "protected" := {| Type_ := TypeBool; ForceNew := false; Required := false;
                        Optional := true; Sensitive := false;
                        Default := Some (VBool false) |} ]>
  (<[ "masked" := {| Type_ := TypeBool; ForceNew := false; Required := false;
                     Optional := true; Sensitive := false;
                     Default := Some (VBool false) |} ]> ∅)))).

(** [*schema.ResourceData]: the identifier slot and the attribute values. *)
Record ResourceData : Type := {
  Id : string;
  attrs : gmap string Value
}.

(** [d.SetId(id)] *)
Definition SetId (d : ResourceData) (id : string) : ResourceData :=
  {| Id := id; attrs := attrs d |}.

(** [d.Get(k)]: the value held for [k], the zero value of the attribute's
    type when none is held, and [nil] for a name the schema does not have. *)
Definition Get (d : ResourceData) (k : string) : option Value :=
  match attrs d !! k with
  | Some v => Some v
  | None => (λ s, zeroValue (Type_ s)) <$> resourceSchema !! k
  end.

(** [d.Set(k, v)]: the SDK stores a value of the attribute's type and
    returns an error, changing nothing, otherwise; the handlers drop that
    error. *)
Definition Set_ (d : ResourceData) (k : string) (v : Value) : ResourceData :=
  match resourceSchema !! k with
  | Some s =>
      if decide (typeOf v = Type_ s)
      then {| Id := Id d; attrs := <[ k := v ]> (attrs d) |}
      else d
  | None => d
  end.

(** The planned attribute values the SDK computes from a configuration: each
    attribute of the schema gets its configured value, or the schema's
    [Default] when the configuration leaves it out. *)
Definition planned (config : gmap string Value) : gmap string Value :=
  map_imap (λ k s, match config !! k with
                   | Some v => Some v
                   | None => Default s
                   end) resourceSchema.

(** The resource data Create receives for a configuration: no identifier
    yet, and the planned values. *)
Definition newResourceData (config : gmap string Value) : ResourceData :=
  {| Id := ""; attrs := planned config |}.

(** The resource data Read receives on import: the SDK sets the identifier
    to the string given by the user and holds no attribute. *)
Definition importResourceData (id : string) : ResourceData :=
  {| Id := id; attrs := ∅ |}.

(** [schema.ImportStatePassthroughContext] returns the resource data it is
    given, untouched. *)
Definition ImportStatePassthroughContext (d : ResourceData)
  : list ResourceData * option gitlab.error :=
  ([d], None).

(** ** Programs over the service *)

(** A handler is a program that returns, panics, or makes a call and goes
    on with the reply. *)
Inductive Prog (A : Type) : Type :=
| Ret (a : A)
| Panic (msg : string)
| Call (q : gitlab.Request) (k : gitlab.Reply q → Prog A).

Arguments Ret {A} a.
Arguments Panic {A} msg.
Arguments Call {A} q k.

Fixpoint bind {A B : Type} (p : Prog A) (f : A → Prog B) : Prog B :=
  match p with
  | Ret a => f a
  | Panic msg => Panic msg
  | Call q k => Call q (λ x, bind (k x) f)
  end.

#[global] Instance Prog_ret : MRet Prog := @Ret.
#[global] Instance Prog_bind : MBind Prog := λ A B f p, bind p f.

Definition call (q : gitlab.Request) : Prog (gitlab.Reply q) := Call q Ret.

(** A type assertion [x.(string)] or [x.(bool)] panics on any other value. *)
Definition assertString (x : option Value) : Prog string :=
  match x with
  | Some (VString s) => Ret s
  | _ => Panic "interface conversion: interface {} is not string"
  end.

Definition assertBool (x : option Value) : Prog bool :=
  match x with
  | Some (VBool b) => Ret b
  | _ => Panic "interface conversion: interface {} is not bool"
  end.

(** Reading a field through a [nil] pointer panics. *)
Definition deref {A : Type} (p : option A) : Prog A :=
  match p with
  | Some a => Ret a
  | None => Panic "invalid memory address or nil pointer dereference"
  end.

(** ** Running a program against a service *)

(** A service with state [R] answers each request and moves to a new state. *)
Definition Client (R : Type) : Type :=
  ∀ q : gitlab.Request, R → gitlab.Reply q * R.

Inductive Outcome (A : Type) : Type :=
| Returned (a : A)
| Panicked (msg : string).

Arguments Returned {A} a.
Arguments Panicked {A} msg.

Record Run (R A : Type) : Type := {
  outcome : Outcome A;
  remote : R;
  requests : list gitlab.Request
}.

Arguments outcome {R A} _.
Arguments remote {R A} _.
Arguments requests {R A} _.

Fixpoint run {R A : Type} (c : Client R) (p : Prog A) (r : R) : Run R A :=
  match p with
  | Ret a => {| outcome := Returned a; remote := r; requests := [] |}
  | Panic msg => {| outcome := Panicked msg; remote := r; requests := [] |}
  | Call q k =>
      let '(x, r') := c q r in
      let rest := run c (k x) r' in
      {| outcome := outcome rest; remote := remote rest;
         requests := q :: requests rest |}
  end.

(** ** The remote service *)

(** What the service keeps for a variable name. *)
Record Stored : Type := {
  storedValue : string;
  storedType : gitlab.VariableTypeValue;
  storedProtected : bool;
  storedMasked : bool
}.

(** The object the service returns for the variable kept under [k]. *)
Definition toVariable (k : string) (s : Stored) : gitlab.InstanceVariable :=
  {| gitlab.Key := k;
     gitlab.Value := storedValue s;
     gitlab.VariableType := storedType s;
     gitlab.Protected := storedProtected s;
     gitlab.Masked := storedMasked s |}.

Definition created (opt : gitlab.CreateInstanceVariableOptions.t) : Stored :=
  {| storedValue := default "" (gitlab.CreateInstanceVariableOptions.Value opt);
     storedType :=
       default gitlab.EnvVariableType
         (gitlab.CreateInstanceVariableOptions.VariableType opt);
     storedProtected :=
       default false (gitlab.CreateInstanceVariableOptions.Protected opt);
     storedMasked :=
       default false (gitlab.CreateInstanceVariableOptions.Masked opt) |}.

Definition updated (opt : gitlab.UpdateInstanceVariableOptions.t) (s : Stored)
  : Stored :=
  {| storedValue :=
       default (storedValue s) (gitlab.UpdateInstanceVariableOptions.Value opt);
     storedType :=
       default (storedType s)
         (gitlab.UpdateInstanceVariableOptions.VariableType opt);
     storedProtected :=
       default (storedProtected s)
         (gitlab.UpdateInstanceVariableOptions.Protected opt);
     storedMasked :=
       default (storedMasked s)
         (gitlab.UpdateInstanceVariableOptions.Masked opt) |}.

Definition status (code : Z) : option gitlab.Response :=
  Some {| gitlab.StatusCode := code |}.

(** Modelled from the spec: the GitLab instance-variable API itself is not
    part of this repository.  It keeps the variables by name, creates one
    under a free name from the fields sent (a field left out takes the API's
    default), returns, changes or removes the variable of a name, and answers
    404 for a name it does not hold. *)
Definition gitlabServer : Client (gmap string Stored) :=
  λ q r,
    match q as q' return gitlab.Reply q' * gmap string Stored with
    | gitlab.CreateVariable opt =>
        match gitlab.CreateInstanceVariableOptions.Key opt with
        | None => ((None, status 400, Some "400 key is missing"), r)
        | Some k =>
            match r !! k with
            | Some _ =>
                ((None, status 400, Some "400 key has already been taken"), r)
            | None =>
                ((Some (toVariable k (created opt)), status 201, None),
                 <[ k := created opt ]> r)
            end
        end
    | gitlab.GetVariable k =>
        match r !! k with
        | Some s => ((Some (toVariable k s), status 200, None), r)
        | None => ((None, status 404, Some "404 Not Found"), r)
        end
    | gitlab.UpdateVariable k opt =>
        match r !! k with
        | Some s =>
            ((Some (toVariable k (updated opt s)), status 200, None),
             <[ k := updated opt s ]> r)
        | None => ((None, status 404, Some "404 Not Found"), r)
        end
    | gitlab.RemoveVariable k =>
        match r !! k with
        | Some _ => ((status 204, None), delete k r)
        | None => ((status 404, Some "404 Not Found"), r)
        end
    end.

(** A service whose connection is down: no request gets a response. *)
Definition unreachable : Client unit :=
  λ q r,
    match q as q' return gitlab.Reply q' * unit with
    | gitlab.RemoveVariable _ => ((None, Some "dial tcp: connection refused"), r)
    | _ => ((None, None, Some "dial tcp: connection refused"), r)
    end.

(** ** The helpers of the provider package *)

(** Modelled from the spec: [stringToVariableType] is defined in another file
    of the provider package.  The variable types are [env_var] and [file];
    any other string gives [nil]. *)
Definition stringToVariableType_model (s : string)
  : option gitlab.VariableTypeValue :=
  if decide (s = "env_var") then Some gitlab.EnvVariableType
  else if decide (s = "file") then Some gitlab.FileVariableType
  else None.

(** Modelled from the spec: [augmentVariableClientError] is defined in another
    file of the provider package.  It turns the error of a call into the
    diagnostics the handler returns. *)
Definition augmentVariableClientError_model
    (d : ResourceData) (err : gitlab.error) : diag.Diagnostics :=
  diag.FromErr err.

(** ** The handlers *)

Section Handlers.

(** The two helpers are parameters of the handlers.  The service the handlers
    take from [meta] is the one their program is run against; the context
    and the [log.Printf] lines touch neither the resource data nor the
    service and are left out. *)
Variable stringToVariableType : string → option gitlab.VariableTypeValue.
Variable augmentVariableClientError :
  ResourceData → gitlab.error → diag.Diagnostics.

(** [resourceGitlabInstanceVariableRead] (source lines 92-115). *)
Definition resourceGitlabInstanceVariableRead (d : ResourceData)
  : Prog (ResourceData * diag.Diagnostics) :=
  let key := Id d in
  '(v, resp, err) ← call (gitlab.GetVariable key);
  match err with
  | Some err =>
      resp ← deref resp;
      if decide (gitlab.StatusCode resp = http.StatusNotFound)
      then mret (SetId d "", [])
      else mret (d, augmentVariableClientError d err)
  | None =>
      v ← deref v;
      let d := Set_ d "key" (VString (gitlab.Key v)) in
      let d := Set_ d "value" (VString (gitlab.Value v)) in
      let d := Set_ d "variable_type" (VString (gitlab.VariableType v)) in
      let d := Set_ d "protected" (VBool (gitlab.Protected v)) in
      let d := Set_ d "masked" (VBool (gitlab.Masked v)) in
      mret (d, [])
  end.

(** [resourceGitlabInstanceVariableCreate] (source lines 64-90). *)
Definition resourceGitlabInstanceVariableCreate (d : ResourceData)
  : Prog (ResourceData * diag.Diagnostics) :=
  key ← assertString (Get d "key");
  value ← assertString (Get d "value");
  variable_type ← assertString (Get d "variable_type");
  let variableType := stringToVariableType variable_type in
  protected ← assertBool (Get d "protected");
  masked ← assertBool (Get d "masked");
  let options := {|
    gitlab.CreateInstanceVariableOptions.Key := Some key;
    gitlab.CreateInstanceVariableOptions.Value := Some value;
    gitlab.CreateInstanceVariableOptions.VariableType := variableType;
    gitlab.CreateInstanceVariableOptions.Protected := Some protected;
    gitlab.CreateInstanceVariableOptions.Masked := Some masked
  |} in
  '(_, _, err) ← call (gitlab.CreateVariable options);
  match err with
  | Some err => mret (d, augmentVariableClientError d err)
  | None =>
      let d := SetId d key in
      resourceGitlabInstanceVariableRead d
  end.

(** [resourceGitlabInstanceVariableUpdate] (source lines 117-139). *)
Definition resourceGitlabInstanceVariableUpdate (d : ResourceData)
  : Prog (ResourceData * diag.Diagnostics) :=
  key ← assertString (Get d "key");
  value ← assertString (Get d "value");
  variable_type ← assertString (Get d "variable_type");
  let variableType := stringToVariableType variable_type in
  protected ← assertBool (Get d "protected");
  masked ← assertBool (Get d "masked");
  let options := {|
    gitlab.UpdateInstanceVariableOptions.Value := Some value;
    gitlab.UpdateInstanceVariableOptions.Protected := Some protected;
    gitlab.UpdateInstanceVariableOptions.VariableType := variableType;
    gitlab.UpdateInstanceVariableOptions.Masked := Some masked
  |} in
  '(_, _, err) ← call (gitlab.UpdateVariable key options);
  match err with
  | Some err => mret (d, augmentVariableClientError d err)
  | None => resourceGitlabInstanceVariableRead d
  end.

(** [resourceGitlabInstanceVariableDelete] (source lines 141-152). *)
Definition resourceGitlabInstanceVariableDelete (d : ResourceData)
  : Prog (ResourceData * diag.Diagnostics) :=
  key ← assertString (Get d "key");
  '(_, err) ← call (gitlab.RemoveVariable key);
  match err with
  | Some err => mret (d, augmentVariableClientError d err)
  | None => mret (d, [])
  end.

End Handlers.

(** ** Notions used by the statements *)

(** The SDK only holds values of the type the schema gives their attribute. *)
Definition wellTyped (m : gmap string Value) : Prop :=
  map_Forall (λ k v, Type_ <$> resourceSchema !! k = Some (typeOf v)) m.

Definition conforms (d : ResourceData) : Prop := wellTyped (attrs d).

#[global] Instance wellTyped_dec m : Decision (wellTyped m).
Proof. unfold wellTyped. apply _. Defined.

#[global] Instance conforms_dec d : Decision (conforms d).
Proof. unfold conforms. apply _. Defined.

(** The string and the boolean an attribute reads as. *)
Definition getString (d : ResourceData) (k : string) : string :=
  match Get d k with
  | Some (VString s) => s
  | _ => ""
  end.

Definition getBool (d : ResourceData) (k : string) : bool :=
  match Get d k with
  | Some (VBool b) => b
  | _ => false
  end.

(** The options Create and Update send for the resource data [d]. *)
Definition createOptions
    (stringToVariableType : string → option gitlab.VariableTypeValue)
    (d : ResourceData) : gitlab.CreateInstanceVariableOptions.t :=
  {| gitlab.CreateInstanceVariableOptions.Key := Some (getString d "key");
     gitlab.CreateInstanceVariableOptions.Value := Some (getString d "value");
     gitlab.CreateInstanceVariableOptions.VariableType :=
       stringToVariableType (getString d "variable_type");
     gitlab.CreateInstanceVariableOptions.Protected :=
       Some (getBool d "protected");
     gitlab.CreateInstanceVariableOptions.Masked := Some (getBool d "masked") |}.

Definition updateOptions
    (stringToVariableType : string → option gitlab.VariableTypeValue)
    (d : ResourceData) : gitlab.UpdateInstanceVariableOptions.t :=
  {| gitlab.UpdateInstanceVariableOptions.Value := Some (getString d "value");
     gitlab.UpdateInstanceVariableOptions.VariableType :=
       stringToVariableType (getString d "variable_type");
     gitlab.UpdateInstanceVariableOptions.Protected :=
       Some (getBool d "protected");
     gitlab.UpdateInstanceVariableOptions.Masked := Some (getBool d "masked") |}.

(** The key a request carries in its payload (not the name in its path). *)
Definition payloadKey (q : gitlab.Request) : option string :=
  match q with
  | gitlab.CreateVariable opt => gitlab.CreateInstanceVariableOptions.Key opt
  | _ => None
  end.

(** The five local fields read as the fields of the variable [v]. *)
Definition fieldsOf (d : ResourceData) (v : gitlab.InstanceVariable) : Prop :=
  Get d "key" = Some (VString (gitlab.Key v)) ∧
  Get d "value" = Some (VString (gitlab.Value v)) ∧
  Get d "variable_type" = Some (VString (gitlab.VariableType v)) ∧
  Get d "protected" = Some (VBool (gitlab.Protected v)) ∧
  Get d "masked" = Some (VBool (gitlab.Masked v)).

(** The resource data after Read has written the fields of [v] into [d]
    (source lines 109-113). *)
Definition readFields (d : ResourceData) (v : gitlab.InstanceVariable)
  : ResourceData :=
  Set_ (Set_ (Set_ (Set_ (Set_ d
    "key" (VString (gitlab.Key v)))
    "value" (VString (gitlab.Value v)))
    "variable_type" (VString (gitlab.VariableType v)))
    "protected" (VBool (gitlab.Protected v)))
    "masked" (VBool (gitlab.Masked v)).

(** What Read does with the reply of its get call (source lines 100-114). *)
Definition afterGet
    (augmentVariableClientError : ResourceData → gitlab.error → diag.Diagnostics)
    (d : ResourceData) (x : gitlab.VariableReply)
  : Outcome (ResourceData * diag.Diagnostics) :=
  match x with
  | (_, Some resp, Some err) =>
      if decide (gitlab.StatusCode resp = http.StatusNotFound)
      then Returned (SetId d "", [])
      else Returned (d, augmentVariableClientError d err)
  | (Some v, _, None) => Returned (readFields d v, [])
  | _ => Panicked "invalid memory address or nil pointer dereference"
  end.

(** A service keys its variables by name: the variable it returns for a name
    carries that name as its key. *)
Definition keyed {R : Type} (c : Client R) : Prop :=
  ∀ k r v resp r',
    c (gitlab.GetVariable k) r = ((Some v, resp, None), r') → gitlab.Key v = k.

(** A service is faithful to what it was asked to create: after a create call
    without error, getting the key that was sent returns a variable with the
    fields that were sent. *)
Definition faithful {R : Type} (c : Client R) : Prop :=
  ∀ opt r v resp r' k,
    c (gitlab.CreateVariable opt) r = ((v, resp, None), r') →
    gitlab.CreateInstanceVariableOptions.Key opt = Some k →
    ∃ v' resp' r'',
      c (gitlab.GetVariable k) r' = ((Some v', resp', None), r'') ∧
      gitlab.Key v' = k ∧
      (∀ x, gitlab.CreateInstanceVariableOptions.Value opt = Some x →
            gitlab.Value v' = x) ∧
      (∀ x, gitlab.CreateInstanceVariableOptions.VariableType opt = Some x →
            gitlab.VariableType v' = x) ∧
      (∀ x, gitlab.CreateInstanceVariableOptions.Protected opt = Some x →
            gitlab.Protected v' = x) ∧
      (∀ x, gitlab.CreateInstanceVariableOptions.Masked opt = Some x →
            gitlab.Masked v' = x).

(** The local identity equals the local key field. *)
Definition identityIsKey (d : ResourceData) : Prop := Id d = getString d "key".

Inductive Operation : Type := Create | Read | Update | Delete.

Definition handler
    (stringToVariableType : string → option gitlab.VariableTypeValue)
    (augmentVariableClientError : ResourceData → gitlab.error → diag.Diagnostics)
    (op : Operation) : ResourceData → Prog (ResourceData * diag.Diagnostics) :=
  match op with
  | Create =>
      resourceGitlabInstanceVariableCreate
        stringToVariableType augmentVariableClientError
  | Read => resourceGitlabInstanceVariableRead augmentVariableClientError
  | Update =>
      resourceGitlabInstanceVariableUpdate
        stringToVariableType augmentVariableClientError
  | Delete => resourceGitlabInstanceVariableDelete augmentVariableClientError
  end.

(** A resource data in the state Read leaves behind for the variable
    [DB_PASS]. *)
Definition dbPass : ResourceData :=
  {| Id := "DB_PASS";
     attrs := <[ "key" := VString "DB_PASS" ]>
              (<[ "value" := VString "secret" ]>
              (<[ "variable_type" := VString "env_var" ]>
              (<[ "protected" := VBool true ]>
              (<[ "masked" := VBool true ]> ∅)))) |}.

(** The configuration of the spec's example scenario, and one that leaves out
    the optional attributes. *)
Definition dbPassConfig : gmap string Value :=
  <[ "key" := VString "DB_PASS" ]>
  (<[ "value" := VString "secret" ]>
  (<[ "variable_type" := VString "env_var" ]>
  (<[ "protected" := VBool true ]>
  (<[ "masked" := VBool true ]> ∅)))).

Definition minimalConfig : gmap string Value :=
  <[ "key" := VString "DB_PASS" ]> (<[ "value" := VString "secret" ]> ∅).

(** A service state that holds the variable [DB_PASS]. *)
Definition dbPassStore : gmap string Stored :=
  {[ "DB_PASS" := {| storedValue := "secret"; storedType := "env_var";
                     storedProtected := true; storedMasked := true |} ]}.

(** ** Services for the handlers' other paths *)

(** A service that answers the get call with a response whenever it answers
    with an error, and with a variable whenever it does not. *)
Definition responsive {R : Type} (c : Client R) : Prop :=
  ∀ k r v resp err r',
    c (gitlab.GetVariable k) r = ((v, resp, err), r') →
    match err with
    | Some _ => is_Some resp
    | None => is_Some v
    end.

(** A service on which removal is effective: after a remove call without
    error, getting the same name answers not-found. *)
Definition removalEffective {R : Type} (c : Client R) : Prop :=
  ∀ k r resp r',
    c (gitlab.RemoveVariable k) r = ((resp, None), r') →
    ∃ v rp err r'',
      c (gitlab.GetVariable k) r' = ((v, Some rp, Some err), r'') ∧
      gitlab.StatusCode rp = http.StatusNotFound.

(** A service faithful to what it was asked to update: after an update call
    without error, getting the same name returns a variable with the fields
    that were sent. *)
Definition faithfulUpdate {R : Type} (c : Client R) : Prop :=
  ∀ k opt r v resp r',
    c (gitlab.UpdateVariable k opt) r = ((v, resp, None), r') →
    ∃ v' resp' r'',
      c (gitlab.GetVariable k) r' = ((Some v', resp', None), r'') ∧
      gitlab.Key v' = k ∧
      (∀ x, gitlab.UpdateInstanceVariableOptions.Value opt = Some x →
            gitlab.Value v' = x) ∧
      (∀ x, gitlab.UpdateInstanceVariableOptions.VariableType opt = Some x →
            gitlab.VariableType v' = x) ∧
      (∀ x, gitlab.UpdateInstanceVariableOptions.Protected opt = Some x →
            gitlab.Protected v' = x) ∧
      (∀ x, gitlab.UpdateInstanceVariableOptions.Masked opt = Some x →
            gitlab.Masked v' = x).

(** A service that refuses every call with the status [code]. *)
Definition refusing (code : Z) : Client unit :=
  λ q r,
    match q as q' return gitlab.Reply q' * unit with
    | gitlab.RemoveVariable _ => ((status code, Some "request refused"), r)
    | _ => ((None, status code, Some "request refused"), r)
    end.

(** A service that accepts every create, update and remove call and holds
    nothing: every get call answers not-found. *)
Definition forgetful : Client unit :=
  λ q r,
    match q as q' return gitlab.Reply q' * unit with
    | gitlab.CreateVariable opt =>
        ((Some (toVariable
                  (default "" (gitlab.CreateInstanceVariableOptions.Key opt))
                  (created opt)),
          status 201, None), r)
    | gitlab.GetVariable _ => ((None, status 404, Some "404 Not Found"), r)
    | gitlab.UpdateVariable _ _ => ((None, status 200, None), r)
    | gitlab.RemoveVariable _ => ((status 204, None), r)
    end.

(** The first call an operation makes for the resource data [d]. *)
Definition firstRequest
    (stringToVariableType : string → option gitlab.VariableTypeValue)
    (op : Operation) (d : ResourceData) : gitlab.Request :=
  match op with
  | Create => gitlab.CreateVariable (createOptions stringToVariableType d)
  | Read => gitlab.GetVariable (Id d)
  | Update =>
      gitlab.UpdateVariable (getString d "key")
        (updateOptions stringToVariableType d)
  | Delete => gitlab.RemoveVariable (getString d "key")
  end.

(** The error of a reply, whatever the request was. *)
Definition replyError {q : gitlab.Request} : gitlab.Reply q → option gitlab.error :=
  match q with
  | gitlab.RemoveVariable _ => λ x, x.2
  | _ => λ x, x.2
  end.


(** The get call an operation makes, if it makes one: the name it asks for
    and the state of the service it asks in.  Read asks for the identity at
    once; Create and Update ask after their own call returned no error,
    Create for the key field and Update for the identity; Delete never
    asks. *)
Definition getCall {R : Type} (c : Client R)
    (stringToVariableType : string → option gitlab.VariableTypeValue)
    (op : Operation) (d : ResourceData) (r : R) : option (string * R) :=
  match op with
  | Create =>
      match replyError (c (firstRequest stringToVariableType Create d) r).1 with
      | None =>
          Some (getString d "key",
                (c (firstRequest stringToVariableType Create d) r).2)
      | Some _ => None
      end
  | Read => Some (Id d, r)
  | Update =>
      match replyError (c (firstRequest stringToVariableType Update d) r).1 with
      | None =>
          Some (Id d, (c (firstRequest stringToVariableType Update d) r).2)
      | Some _ => None
      end
  | Delete => None
  end.

(** * Properties *)

(** ** The schema and the resource data *)

Lemma schema_type (k : string) (t : ValueType) :
  Type_ <$> resourceSchema !! k = Some t →
  (k = "key" ∨ k = "value" ∨ k = "variable_type") ∧ t = TypeString ∨
  (k = "protected" ∨ k = "masked") ∧ t = TypeBool.
Proof.
  unfold resourceSchema. intros H.
  repeat (rewrite lookup_insert in H; case_decide;
          [ subst; simpl in H; injection H as <-; tauto | ]).
  rewrite lookup_empty in H. discriminate.
Qed.

Lemma schema_string (k : string) :
  k = "key" ∨ k = "value" ∨ k = "variable_type" →
  Type_ <$> resourceSchema !! k = Some TypeString.
Proof. intros [-> | [-> | ->]]; reflexivity. Qed.

Lemma schema_bool (k : string) :
  k = "protected" ∨ k = "masked" →
  Type_ <$> resourceSchema !! k = Some TypeBool.
Proof. intros [-> | ->]; reflexivity. Qed.

Lemma Get_string (d : ResourceData) (k : string) :
  conforms d →
  k = "key" ∨ k = "value" ∨ k = "variable_type" →
  Get d k = Some (VString (getString d k)).
Proof.
  intros Hd Hk. apply schema_string in Hk.
  unfold getString, Get. destruct (attrs d !! k) as [v|] eqn:E.
  - apply Hd in E. rewrite Hk in E. destruct v; [reflexivity | discriminate].
  - destruct (resourceSchema !! k) as [s|]; [| discriminate].
    simpl in *. injection Hk as ->. reflexivity.
Qed.

Lemma Get_bool (d : ResourceData) (k : string) :
  conforms d →
  k = "protected" ∨ k = "masked" →
  Get d k = Some (VBool (getBool d k)).
Proof.
  intros Hd Hk. apply schema_bool in Hk.
  unfold getBool, Get. destruct (attrs d !! k) as [v|] eqn:E.
  - apply Hd in E. rewrite Hk in E. destruct v; [discriminate | reflexivity].
  - destruct (resourceSchema !! k) as [s|]; [| discriminate].
    simpl in *. injection Hk as ->. reflexivity.
Qed.

Lemma Set_stores (d : ResourceData) (k : string) (v : Value) :
  Type_ <$> resourceSchema !! k = Some (typeOf v) →
  Set_ d k v = {| Id := Id d; attrs := <[ k := v ]> (attrs d) |}.
Proof.
  intros H. unfold Set_. destruct (resourceSchema !! k) as [s|]; [| discriminate].
  simpl in H. injection H as H. rewrite decide_True by done. reflexivity.
Qed.

Lemma Id_Set (d : ResourceData) (k : string) (v : Value) :
  Id (Set_ d k v) = Id d.
Proof.
  unfold Set_. destruct (resourceSchema !! k); [| reflexivity].
  case_decide; reflexivity.
Qed.

Lemma Get_Set_eq (d : ResourceData) (k : string) (v : Value) :
  Type_ <$> resourceSchema !! k = Some (typeOf v) →
  Get (Set_ d k v) k = Some v.
Proof.
  intros H. rewrite Set_stores by done. unfold Get. simpl.
  by rewrite lookup_insert_eq.
Qed.

Lemma Get_Set_ne (d : ResourceData) (k k' : string) (v : Value) :
  k ≠ k' → Get (Set_ d k v) k' = Get d k'.
Proof.
  intros H. unfold Set_. destruct (resourceSchema !! k); [| reflexivity].
  case_decide; [| reflexivity]. unfold Get. simpl.
  by rewrite lookup_insert_ne.
Qed.

Lemma conforms_Set (d : ResourceData) (k : string) (v : Value) :
  conforms d → conforms (Set_ d k v).
Proof.
  intros Hd. unfold Set_. destruct (resourceSchema !! k) as [s|] eqn:E; [| done].
  case_decide as Ht; [| done].
  unfold conforms, wellTyped. simpl. apply map_Forall_insert_2; [| done].
  rewrite E. simpl. by rewrite Ht.
Qed.

Lemma conforms_SetId (d : ResourceData) (id : string) :
  conforms d → conforms (SetId d id).
Proof. done. Qed.

Lemma Get_SetId (d : ResourceData) (id k : string) :
  Get (SetId d id) k = Get d k.
Proof. reflexivity. Qed.

Lemma getString_SetId (d : ResourceData) (id k : string) :
  getString (SetId d id) k = getString d k.
Proof. reflexivity. Qed.

(** The planned values of a well-typed configuration are well typed, and an
    attribute the configuration leaves out is planned at the schema default. *)
Lemma planned_lookup (config : gmap string Value) (k : string) :
  planned config !! k =
  s ← resourceSchema !! k;
  match config !! k with
  | Some v => Some v
  | None => Default s
  end.
Proof. unfold planned. apply map_lookup_imap. Qed.

Lemma wellTyped_planned (config : gmap string Value) :
  wellTyped config → wellTyped (planned config).
Proof.
  intros Hc k v. rewrite planned_lookup.
  destruct (resourceSchema !! k) as [s|] eqn:E; [| discriminate]. simpl.
  destruct (config !! k) as [w|] eqn:Ek.
  - intros [= <-]. apply Hc in Ek. by rewrite E in Ek.
  - intros Hdef. revert E Hdef. unfold resourceSchema.
    repeat (rewrite lookup_insert; case_decide;
            [ intros [= <-]; simpl; intros [= <-] || discriminate; reflexivity | ]).
    by rewrite lookup_empty.
Qed.

Lemma conforms_newResourceData (config : gmap string Value) :
  wellTyped config → conforms (newResourceData config).
Proof. apply wellTyped_planned. Qed.

Lemma conforms_importResourceData (id : string) :
  conforms (importResourceData id).
Proof. apply map_Forall_empty. Qed.

(** ** Running programs *)

Lemma run_bind {R A B : Type} (c : Client R) (p : Prog A) (f : A → Prog B) (r : R) :
  run c (bind p f) r =
  match outcome (run c p r) with
  | Returned a =>
      let rest := run c (f a) (remote (run c p r)) in
      {| outcome := outcome rest; remote := remote rest;
         requests := requests (run c p r) ++ requests rest |}
  | Panicked msg =>
      {| outcome := Panicked msg; remote := remote (run c p r);
         requests := requests (run c p r) |}
  end.
Proof.
  revert r. induction p as [a | msg | q k IH]; intros r; simpl.
  - by destruct (run c (f a) r).
  - reflexivity.
  - destruct (c q r) as [x r']. simpl. rewrite IH.
    by destruct (outcome (run c (k x) r')).
Qed.

Lemma run_call {R A : Type} (c : Client R) (q : gitlab.Request)
    (k : gitlab.Reply q → Prog A) (r : R) :
  run c (Call q k) r =
  {| outcome := outcome (run c (k (c q r).1) (c q r).2);
     remote := remote (run c (k (c q r).1) (c q r).2);
     requests := q :: requests (run c (k (c q r).1) (c q r).2) |}.
Proof. simpl. by destruct (c q r). Qed.

Lemma readFields_Id (d : ResourceData) (v : gitlab.InstanceVariable) :
  Id (readFields d v) = Id d.
Proof. unfold readFields. by rewrite !Id_Set. Qed.

Lemma readFields_fieldsOf (d : ResourceData) (v : gitlab.InstanceVariable) :
  fieldsOf (readFields d v) v.
Proof.
  unfold fieldsOf, readFields.
  repeat split;
    repeat (rewrite Get_Set_ne by discriminate); by rewrite Get_Set_eq.
Qed.

Lemma readFields_conforms (d : ResourceData) (v : gitlab.InstanceVariable) :
  conforms d → conforms (readFields d v).
Proof. intros H. unfold readFields. by repeat apply conforms_Set. Qed.

Lemma readFields_key (d : ResourceData) (v : gitlab.InstanceVariable) :
  getString (readFields d v) "key" = gitlab.Key v.
Proof.
  unfold getString. by destruct (readFields_fieldsOf d v) as (-> & _).
Qed.

(** ** The handlers, one call at a time *)

Section Calls.

Context {R : Type} (c : Client R).
Variable stringToVariableType : string → option gitlab.VariableTypeValue.
Variable augmentVariableClientError :
  ResourceData → gitlab.error → diag.Diagnostics.

Abbreviation read := (resourceGitlabInstanceVariableRead augmentVariableClientError).
Abbreviation create :=
  (resourceGitlabInstanceVariableCreate
     stringToVariableType augmentVariableClientError).
Abbreviation update :=
  (resourceGitlabInstanceVariableUpdate
     stringToVariableType augmentVariableClientError).
Abbreviation delete_ :=
  (resourceGitlabInstanceVariableDelete augmentVariableClientError).

Lemma run_read (d : ResourceData) (r : R) :
  run c (read d) r =
  {| outcome := afterGet augmentVariableClientError d (c (gitlab.GetVariable (Id d)) r).1;
     remote := (c (gitlab.GetVariable (Id d)) r).2;
     requests := [gitlab.GetVariable (Id d)] |}.
Proof.
  unfold resourceGitlabInstanceVariableRead, call, mbind, Prog_bind. simpl.
  destruct (c (gitlab.GetVariable (Id d)) r) as [[[v resp] err] r']. simpl.
  destruct v as [v|], resp as [resp|], err as [err|]; simpl;
    try reflexivity; by case_decide.
Qed.

(** ** Create, Update and Delete, one call at a time *)

Lemma run_create (d : ResourceData) (r : R) :
  conforms d →
  run c (create d) r =
  let q := gitlab.CreateVariable (createOptions stringToVariableType d) in
  match (c q r).1.2 with
  | Some err =>
      {| outcome := Returned (d, augmentVariableClientError d err);
         remote := (c q r).2;
         requests := [q] |}
  | None =>
      let rest := run c (read (SetId d (getString d "key"))) (c q r).2 in
      {| outcome := outcome rest; remote := remote rest;
         requests := q :: requests rest |}
  end.
Proof.
  intros Hd. unfold resourceGitlabInstanceVariableCreate.
  rewrite (Get_string d "key"), (Get_string d "value"),
    (Get_string d "variable_type"), (Get_bool d "protected"),
    (Get_bool d "masked") by auto.
  unfold call, mbind, Prog_bind. cbn [assertString assertBool bind].
  rewrite run_call. fold (createOptions stringToVariableType d).
  destruct (c _ r) as [[[v resp] [err|]] r']; reflexivity.
Qed.

Lemma run_update (d : ResourceData) (r : R) :
  conforms d →
  run c (update d) r =
  let q := gitlab.UpdateVariable (getString d "key")
             (updateOptions stringToVariableType d) in
  match (c q r).1.2 with
  | Some err =>
      {| outcome := Returned (d, augmentVariableClientError d err);
         remote := (c q r).2;
         requests := [q] |}
  | None =>
      let rest := run c (read d) (c q r).2 in
      {| outcome := outcome rest; remote := remote rest;
         requests := q :: requests rest |}
  end.
Proof.
  intros Hd. unfold resourceGitlabInstanceVariableUpdate.
  rewrite (Get_string d "key"), (Get_string d "value"),
    (Get_string d "variable_type"), (Get_bool d "protected"),
    (Get_bool d "masked") by auto.
  unfold call, mbind, Prog_bind. cbn [assertString assertBool bind].
  rewrite run_call. fold (updateOptions stringToVariableType d).
  destruct (c _ r) as [[[v resp] [err|]] r']; reflexivity.
Qed.

Lemma run_delete (d : ResourceData) (r : R) :
  conforms d →
  run c (delete_ d) r =
  let q := gitlab.RemoveVariable (getString d "key") in
  {| outcome :=
       Returned (d, match (c q r).1.2 with
                    | Some err => augmentVariableClientError d err
                    | None => []
                    end);
     remote := (c q r).2;
     requests := [q] |}.
Proof.
  intros Hd. unfold resourceGitlabInstanceVariableDelete.
  rewrite (Get_string d "key") by auto.
  unfold call, mbind, Prog_bind. cbn [assertString assertBool bind].
  rewrite run_call.
  destruct (c _ r) as [[resp [err|]] r']; reflexivity.
Qed.


End Calls.

(** ** The model of the service *)

Lemma gitlabServer_get_remote (k : string) (r : gmap string Stored) :
  (gitlabServer (gitlab.GetVariable k) r).2 = r.
Proof. cbn. by destruct (r !! k). Qed.

Lemma gitlabServer_update_dom
    (k : string) (opt : gitlab.UpdateInstanceVariableOptions.t)
    (r : gmap string Stored) :
  dom (gitlabServer (gitlab.UpdateVariable k opt) r).2 = dom r.
Proof.
  cbn. destruct (r !! k) as [s|] eqn:E; cbn; [| done].
  apply dom_insert_lookup_L. by rewrite E.
Qed.

Lemma gitlabServer_keyed : keyed gitlabServer.
Proof.
  intros k r v resp r'. cbn. destruct (r !! k); [| discriminate].
  by intros [= <- ? ?].
Qed.

Lemma gitlabServer_faithful : faithful gitlabServer.
Proof.
  intros opt r v resp r' k. cbn. intros Hc Hk. rewrite Hk in Hc.
  destruct (r !! k) eqn:E; [discriminate |]. injection Hc as _ _ <-.
  exists (toVariable k (created opt)), (status 200), (<[k:=created opt]> r).
  rewrite lookup_insert_eq. split; [done |]. split; [done |].
  unfold created. cbn. repeat split; by intros x ->.
Qed.

(** ** The claims *)

Section Properties.

Context {R : Type} (c : Client R).
Variable stringToVariableType : string → option gitlab.VariableTypeValue.
Variable augmentVariableClientError :
  ResourceData → gitlab.error → diag.Diagnostics.

Abbreviation read := (resourceGitlabInstanceVariableRead augmentVariableClientError).
Abbreviation create :=
  (resourceGitlabInstanceVariableCreate
     stringToVariableType augmentVariableClientError).
Abbreviation update :=
  (resourceGitlabInstanceVariableUpdate
     stringToVariableType augmentVariableClientError).
Abbreviation delete_ :=
  (resourceGitlabInstanceVariableDelete augmentVariableClientError).

(** ** Read *)

(** C1: when the get call of Read returns an error and the response carries
    status 404, Read sets the local identity to the empty string, changes
    none of the local fields, and returns success with no diagnostic. *)
Theorem read_not_found_clears_identity
    (d : ResourceData) (r r' : R)
    (v : option gitlab.InstanceVariable) (resp : gitlab.Response)
    (err : gitlab.error) :
  c (gitlab.GetVariable (Id d)) r = ((v, Some resp, Some err), r') →
  gitlab.StatusCode resp = http.StatusNotFound →
  ∃ d', outcome (run c (read d) r) = Returned (d', []) ∧
        Id d' = "" ∧
        attrs d' = attrs d ∧
        ∀ k, Get d' k = Get d k.
Proof.
  intros Hget H404. exists (SetId d ""). rewrite run_read, Hget. simpl.
  rewrite decide_True by done. by destruct v.
Qed.

(** C6: when the get call of Read succeeds, Read overwrites the five local
    fields with the fields of the fetched variable and returns no error. *)
Theorem read_success_overwrites_fields
    (d : ResourceData) (r r' : R)
    (v : gitlab.InstanceVariable) (resp : option gitlab.Response) :
  c (gitlab.GetVariable (Id d)) r = ((Some v, resp, None), r') →
  ∃ d', outcome (run c (read d) r) = Returned (d', []) ∧
        fieldsOf d' v ∧
        Id d' = Id d.
Proof.
  intros Hget. exists (readFields d v). rewrite run_read, Hget. simpl.
  split; [by destruct resp |].
  split; [apply readFields_fieldsOf | apply readFields_Id].
Qed.

(** The error branch of Read reads the status code of the response whatever
    else the reply holds: with a response the outcome is decided by its
    status code, without one the read is a nil dereference and Read panics.
    So the error branch returns exactly when the transport produced a
    response. *)
Lemma read_error_branch
    (d : ResourceData) (r r' : R)
    (v : option gitlab.InstanceVariable) (resp : option gitlab.Response)
    (err : gitlab.error) :
  c (gitlab.GetVariable (Id d)) r = ((v, resp, Some err), r') →
  (∀ rp, resp = Some rp →
     outcome (run c (read d) r) =
     Returned (if decide (gitlab.StatusCode rp = http.StatusNotFound)
               then (SetId d "", [])
               else (d, augmentVariableClientError d err))) ∧
  (resp = None →
     outcome (run c (read d) r) =
     Panicked "invalid memory address or nil pointer dereference") ∧
  ((∃ a, outcome (run c (read d) r) = Returned a) ↔ is_Some resp).
Proof.
  intros Hget. rewrite run_read, Hget. cbn [outcome fst].
  destruct resp as [rp|].
  - assert (Hrp : afterGet augmentVariableClientError d (v, Some rp, Some err) =
                  Returned (if decide (gitlab.StatusCode rp = http.StatusNotFound)
                            then (SetId d "", [])
                            else (d, augmentVariableClientError d err))).
    { destruct v; simpl; by case_decide. }
    rewrite Hrp. split; [by intros ? [= <-] |]. split; [done |].
    split; [by eauto | by eexists].
  - assert (Hnil : afterGet augmentVariableClientError d (v, None, Some err) =
                   Panicked "invalid memory address or nil pointer dereference").
    { by destruct v. }
    rewrite Hnil. split; [done |]. split; [done |].
    split; [by intros [a Ha] | by intros [x Hx]].
Qed.

(** C8: import is a passthrough.  The resource data built for the identifier
    given by the user comes back unchanged, its identity is that identifier,
    and the Read that follows looks the variable up under it. *)
Theorem import_passthrough_identity (id : string) (r : R) :
  (∀ d0, ImportStatePassthroughContext d0 = ([d0], None)) ∧
  ∃ d, ImportStatePassthroughContext (importResourceData id) = ([d], None) ∧
       Id d = id ∧
       requests (run c (read d) r) = [gitlab.GetVariable id].
Proof.
  split; [done |]. exists (importResourceData id).
  split; [done |]. split; [done |]. by rewrite run_read.
Qed.


(** ** Create *)

(** C2: if the create call returns an error, Create returns the augmented
    diagnostics of that error, makes no other call and leaves the resource
    data, with its identity, as it was; if the call succeeds, Create sets the
    identity to the key field and its result is that of Read on the resource
    data so identified. *)
Theorem create_error_or_read
    (d : ResourceData) (r r' : R)
    (v : option gitlab.InstanceVariable) (resp : option gitlab.Response)
    (oerr : option gitlab.error) :
  conforms d →
  c (gitlab.CreateVariable (createOptions stringToVariableType d)) r
    = ((v, resp, oerr), r') →
  (∀ err, oerr = Some err →
     run c (create d) r =
     {| outcome := Returned (d, augmentVariableClientError d err);
        remote := r';
        requests :=
          [gitlab.CreateVariable (createOptions stringToVariableType d)] |}) ∧
  (oerr = None →
     ∃ d1, d1 = SetId d (getString d "key") ∧
           Id d1 = getString d "key" ∧
           outcome (run c (create d) r) = outcome (run c (read d1) r') ∧
           remote (run c (create d) r) = remote (run c (read d1) r') ∧
           requests (run c (create d) r) =
             gitlab.CreateVariable (createOptions stringToVariableType d)
             :: requests (run c (read d1) r')).
Proof.
  intros Hd Hcall. rewrite run_create by done. cbn zeta. rewrite Hcall.
  split.
  - by intros err ->.
  - intros ->. by eexists.
Qed.

(** C7: when the configuration leaves out variable_type, protected or masked,
    Create reads the schema defaults for them, [env_var], [false] and
    [false], and sends those in the create call. *)
Theorem create_uses_schema_defaults (config : gmap string Value) (r : R) :
  wellTyped config →
  let d := newResourceData config in
  ∃ opt rest,
    requests (run c (create d) r) = gitlab.CreateVariable opt :: rest ∧
    (config !! "variable_type" = None →
       Get d "variable_type" = Some (VString "env_var") ∧
       gitlab.CreateInstanceVariableOptions.VariableType opt
         = stringToVariableType "env_var") ∧
    (config !! "protected" = None →
       Get d "protected" = Some (VBool false) ∧
       gitlab.CreateInstanceVariableOptions.Protected opt = Some false) ∧
    (config !! "masked" = None →
       Get d "masked" = Some (VBool false) ∧
       gitlab.CreateInstanceVariableOptions.Masked opt = Some false).
Proof.
  intros Hc d. pose proof (conforms_newResourceData config Hc) as Hd.
  assert (Hdef : ∀ k v, config !! k = None →
                        (resourceSchema !! k ≫= Default) = Some v →
                        Get d k = Some v).
  { intros k v Hk Hs. unfold Get, d, newResourceData. cbn [attrs].
    rewrite planned_lookup.
    destruct (resourceSchema !! k) as [s|]; [| discriminate].
    cbn in *. by rewrite Hk, Hs. }
  assert (Hvt : config !! "variable_type" = None →
                Get d "variable_type" = Some (VString "env_var")).
  { intros Hk. by apply Hdef. }
  assert (Hp : config !! "protected" = None →
               Get d "protected" = Some (VBool false)).
  { intros Hk. by apply Hdef. }
  assert (Hm : config !! "masked" = None →
               Get d "masked" = Some (VBool false)).
  { intros Hk. by apply Hdef. }
  exists (createOptions stringToVariableType d).
  rewrite run_create by done. cbn zeta.
  destruct (c (gitlab.CreateVariable _) r) as [[[? ?] [?|]] ?];
    eexists; (split; [reflexivity |]);
    (split; [| split]); intros Hk; (split; [by auto |]); cbn;
    unfold getString, getBool.
  all: first [by rewrite Hvt | by rewrite Hp | by rewrite Hm].
Qed.

(** ** Update *)

(** C3: the update call is made under the name in the key field, and its
    payload is exactly value, variable_type, protected and masked as the
    resource data holds them; no request of Update carries a key in its
    payload.  The schema forces a new resource when the key changes (and only
    then).  So Update never alters the key: the service renames nothing, and
    the key field of a resource data identified by its key stays what it
    was. *)
Theorem update_payload_excludes_key (d : ResourceData) (r : R) :
  conforms d →
  (∃ rest,
     requests (run c (update d) r) =
     gitlab.UpdateVariable (getString d "key")
       {| gitlab.UpdateInstanceVariableOptions.Value :=
            Some (getString d "value");
          gitlab.UpdateInstanceVariableOptions.VariableType :=
            stringToVariableType (getString d "variable_type");
          gitlab.UpdateInstanceVariableOptions.Protected :=
            Some (getBool d "protected");
          gitlab.UpdateInstanceVariableOptions.Masked :=
            Some (getBool d "masked") |} :: rest) ∧
  (∀ q, q ∈ requests (run c (update d) r) → payloadKey q = None) ∧
  (∀ k, ForceNew <$> resourceSchema !! k = Some true ↔ k = "key") ∧
  (∀ r0, dom (remote (run gitlabServer (update d) r0)) = dom r0) ∧
  (keyed c → identityIsKey d →
   ∀ d' g, outcome (run c (update d) r) = Returned (d', g) →
           getString d' "key" = getString d "key").
Proof.
  intros Hd. split; [| split; [| split; [| split]]].
  - rewrite run_update by done. cbn zeta.
    destruct (c (gitlab.UpdateVariable _ _) r) as [[[? ?] [?|]] ?];
      eexists; reflexivity.
  - intros q. rewrite run_update by done. cbn zeta.
    destruct (c (gitlab.UpdateVariable _ _) r) as [[[? ?] [?|]] ?];
      cbn [requests fst snd]; [| rewrite run_read; cbn [requests]];
      rewrite !elem_of_cons, elem_of_nil; intros H;
      repeat (destruct H as [-> | H]; [reflexivity |]); done.
  - intros k. split.
    + unfold resourceSchema.
      repeat (rewrite lookup_insert; case_decide;
              [ subst; first [discriminate | done] | ]).
      by rewrite lookup_empty.
    + by intros ->.
  - intros r0. rewrite run_update by done. cbn zeta.
    destruct ((gitlabServer (gitlab.UpdateVariable _ _) r0).1.2);
      cbn [remote]; [| rewrite run_read; cbn [remote];
                       rewrite gitlabServer_get_remote];
      apply gitlabServer_update_dom.
  - intros Hk Hinv d' g. rewrite run_update by done. cbn zeta.
    destruct (c (gitlab.UpdateVariable _ _) r) as [[[v resp] [err|]] r1];
      cbn [fst snd outcome].
    { by intros [= <- _]. }
    rewrite run_read. cbn [outcome].
    destruct (c (gitlab.GetVariable (Id d)) r1) as [[[v' resp'] err'] r2] eqn:Eg.
    unfold afterGet. cbn [fst].
    destruct v' as [v'|], resp' as [resp'|], err' as [err'|];
      try discriminate; try (case_decide; by intros [= <- _]).
    all: intros [= <- _]; rewrite readFields_key;
      apply Hk in Eg; by rewrite Eg.
Qed.

(** ** Delete *)

(** C5: for a resource data identified by its key, the removal call is
    keyed by the local identifier and is the only call Delete makes; if the
    call returns an error, not-found included, Delete returns the augmented
    diagnostics of that error, and if it succeeds Delete returns no error.
    The resource data is left as it was either way. *)
Theorem delete_keyed_by_identifier (d : ResourceData) (r : R) :
  conforms d →
  identityIsKey d →
  requests (run c (delete_ d) r) = [gitlab.RemoveVariable (Id d)] ∧
  remote (run c (delete_ d) r) = (c (gitlab.RemoveVariable (Id d)) r).2 ∧
  (∀ resp err r',
     c (gitlab.RemoveVariable (Id d)) r = ((resp, Some err), r') →
     outcome (run c (delete_ d) r)
       = Returned (d, augmentVariableClientError d err)) ∧
  (∀ resp r',
     c (gitlab.RemoveVariable (Id d)) r = ((resp, None), r') →
     outcome (run c (delete_ d) r) = Returned (d, [])).
Proof.
  intros Hd Hinv. rewrite run_delete by done. cbn zeta.
  cbn [requests outcome remote]. rewrite <- Hinv.
  split; [done |]. split; [done |].
  split; intros;
    match goal with H : c _ r = _ |- _ => by rewrite H end.
Qed.

(** ** Create, then Read *)

(** C4: against a faithful service, a Create whose create call succeeds
    sends the supplied fields in the create call, reads the variable back
    under the key, and ends with the five local fields written from the
    fetched variable and equal to the ones supplied, for every resource data
    of the schema's types whose variable type is one the provider accepts
    (one [stringToVariableType] maps to itself). *)
Theorem create_then_read_round_trip
    (d : ResourceData) (r r' : R)
    (v : option gitlab.InstanceVariable) (resp : option gitlab.Response) :
  faithful c →
  conforms d →
  stringToVariableType (getString d "variable_type")
    = Some (getString d "variable_type") →
  c (gitlab.CreateVariable (createOptions stringToVariableType d)) r
    = ((v, resp, None), r') →
  ∃ d' v' resp' r'',
    c (gitlab.GetVariable (getString d "key")) r' = ((Some v', resp', None), r'') ∧
    run c (create d) r =
      {| outcome := Returned (d', []);
         remote := r'';
         requests :=
           [ gitlab.CreateVariable
               {| gitlab.CreateInstanceVariableOptions.Key :=
                    Some (getString d "key");
                  gitlab.CreateInstanceVariableOptions.Value :=
                    Some (getString d "value");
                  gitlab.CreateInstanceVariableOptions.VariableType :=
                    Some (getString d "variable_type");
                  gitlab.CreateInstanceVariableOptions.Protected :=
                    Some (getBool d "protected");
                  gitlab.CreateInstanceVariableOptions.Masked :=
                    Some (getBool d "masked") |};
             gitlab.GetVariable (getString d "key") ] |} ∧
    fieldsOf d' v' ∧
    Id d' = getString d "key" ∧
    fieldsOf d' {| gitlab.Key := getString d "key";
                   gitlab.Value := getString d "value";
                   gitlab.VariableType := getString d "variable_type";
                   gitlab.Protected := getBool d "protected";
                   gitlab.Masked := getBool d "masked" |} ∧
    Get d' "key" = Get d "key" ∧
    Get d' "value" = Get d "value" ∧
    Get d' "variable_type" = Get d "variable_type" ∧
    Get d' "protected" = Get d "protected" ∧
    Get d' "masked" = Get d "masked".
Proof.
  intros Hf Hd Hvt Hcall.
  destruct (Hf _ _ _ _ _ (getString d "key") Hcall eq_refl)
    as (v' & resp' & r'' & Hget & Hk & Hv & Ht & Hp & Hm).
  exists (readFields (SetId d (getString d "key")) v'), v', resp', r''.
  split; [exact Hget |].
  split.
  { rewrite run_create by done. cbn zeta. rewrite Hcall. cbn [fst snd].
    rewrite run_read. cbn [outcome remote requests Id SetId]. rewrite Hget.
    cbn [fst snd]. unfold createOptions. rewrite Hvt.
    f_equal. by destruct resp'. }
  pose proof (readFields_fieldsOf (SetId d (getString d "key")) v')
    as (Fk & Fv & Ft & Fp & Fm).
  split; [done |].
  split; [by rewrite readFields_Id |].
  rewrite Hk in Fk. rewrite (Hv _ eq_refl) in Fv. rewrite (Ht _ Hvt) in Ft.
  rewrite (Hp _ eq_refl) in Fp. rewrite (Hm _ eq_refl) in Fm.
  split; [done |].
  rewrite Fk, Fv, Ft, Fp, Fm.
  by rewrite (Get_string d "key"), (Get_string d "value"),
    (Get_string d "variable_type"), (Get_bool d "protected"),
    (Get_bool d "masked") by auto.
Qed.

(** ** The identity and the key field *)

(** C10, as the code has it: the first call of every operation is keyed as
    the claim says (Read by the identity, Update and Delete by the key field,
    Create by the key it then makes the identity), and after every operation
    that returns no diagnostic the identity equals the key field, the
    identity being the key field for Create and unchanged for the others;
    the one exception is the not-found path: when the get call the operation
    makes answers an error with status 404, the operation returns the
    resource data with its identity cleared and its fields untouched. *)
Theorem successful_operation_identity_is_key
    (op : Operation) (d : ResourceData) (r : R) :
  keyed c →
  (∀ d0 err, augmentVariableClientError d0 err ≠ []) →
  conforms d →
  (op = Delete → identityIsKey d) →
  head (requests
          (run c (handler stringToVariableType augmentVariableClientError op d) r))
    = Some match op with
           | Create =>
               gitlab.CreateVariable (createOptions stringToVariableType d)
           | Read => gitlab.GetVariable (Id d)
           | Update =>
               gitlab.UpdateVariable (getString d "key")
                 (updateOptions stringToVariableType d)
           | Delete => gitlab.RemoveVariable (getString d "key")
           end ∧
  ∀ d',
    outcome
      (run c (handler stringToVariableType augmentVariableClientError op d) r)
      = Returned (d', []) →
    (∃ k r1 v rp err r2,
       getCall c stringToVariableType op d r = Some (k, r1) ∧
       c (gitlab.GetVariable k) r1 = ((v, Some rp, Some err), r2) ∧
       gitlab.StatusCode rp = http.StatusNotFound ∧
       d' = SetId d "") ∨
    (identityIsKey d' ∧
     Id d' = match op with Create => getString d "key" | _ => Id d end).
Proof.
  intros Hk Haug Hd Hinv.
  assert (Hread : ∀ d0 r0 d',
            outcome (run c (read d0) r0) = Returned (d', []) →
            (∃ v rp err r2,
               c (gitlab.GetVariable (Id d0)) r0 = ((v, Some rp, Some err), r2) ∧
               gitlab.StatusCode rp = http.StatusNotFound ∧
               d' = SetId d0 "") ∨
            (identityIsKey d' ∧ Id d' = Id d0)).
  { intros d0 r0 d'. rewrite run_read. cbn [outcome].
    destruct (c (gitlab.GetVariable (Id d0)) r0) as [[[v resp] err] r1] eqn:Eg.
    unfold afterGet. cbn [fst].
    destruct v as [v|], resp as [resp|], err as [err|]; try discriminate;
      try (case_decide;
           [ intros [= <-]; left; by eauto 10
           | intros [= _ Hg]; by apply Haug in Hg ]).
    all: intros [= <-]; right; unfold identityIsKey;
      rewrite readFields_key, readFields_Id; apply Hk in Eg; by rewrite Eg. }
  destruct op; unfold getCall; cbn [handler firstRequest replyError].
  - rewrite run_create by done. cbn zeta.
    destruct (c (gitlab.CreateVariable _) r) as [[[v resp] [err|]] r1];
      cbn [fst snd outcome requests head]; (split; [done |]); intros d'.
    + intros [= _ Hg]. by apply Haug in Hg.
    + intros Ho. destruct (Hread _ _ _ Ho) as [(v' & rp & err & r2 & H1 & H2 & ->) | H].
      * left. exists (getString d "key"), r1, v', rp, err, r2. by eauto.
      * by right.
  - split; [by rewrite run_read |]. intros d' Ho.
    destruct (Hread _ _ _ Ho) as [(v' & rp & err & r2 & H1 & H2 & ->) | H].
    + left. exists (Id d), r, v', rp, err, r2. by eauto.
    + by right.
  - rewrite run_update by done. cbn zeta.
    destruct (c (gitlab.UpdateVariable _ _) r) as [[[v resp] [err|]] r1];
      cbn [fst snd outcome requests head]; (split; [done |]); intros d'.
    + intros [= _ Hg]. by apply Haug in Hg.
    + intros Ho. destruct (Hread _ _ _ Ho) as [(v' & rp & err & r2 & H1 & H2 & ->) | H].
      * left. exists (Id d), r1, v', rp, err, r2. by eauto.
      * by right.
  - rewrite run_delete by done. cbn zeta. cbn [outcome requests head].
    split; [done |]. intros d' [= <- _]. right. by split; [apply Hinv |].
Qed.

End Properties.

(** ** The claims on the model of the service *)

Abbreviation readM :=
  (resourceGitlabInstanceVariableRead augmentVariableClientError_model).
Abbreviation createM :=
  (resourceGitlabInstanceVariableCreate
     stringToVariableType_model augmentVariableClientError_model).
Abbreviation updateM :=
  (resourceGitlabInstanceVariableUpdate
     stringToVariableType_model augmentVariableClientError_model).
Abbreviation deleteM :=
  (resourceGitlabInstanceVariableDelete augmentVariableClientError_model).

(** C1 at the variable [DB_PASS] read against a service that does not hold
    it. *)
Lemma read_not_found_clears_identity_witness :
  gitlabServer (gitlab.GetVariable (Id dbPass)) ∅
    = ((None, status 404, Some "404 Not Found"), ∅) ∧
  ∃ d', outcome (run gitlabServer (readM dbPass) ∅) = Returned (d', []) ∧
        Id d' = "" ∧
        attrs d' = attrs dbPass ∧
        ∀ k, Get d' k = Get dbPass k.
Proof.
  split; [vm_compute; reflexivity |].
  apply (read_not_found_clears_identity gitlabServer
           augmentVariableClientError_model dbPass ∅ ∅ None
           {| gitlab.StatusCode := 404 |} "404 Not Found");
    [vm_compute; reflexivity | reflexivity].
Defined.

(** C6 at an import of [DB_PASS] against a service that holds it. *)
Lemma read_success_overwrites_fields_witness :
  ∃ d', outcome (run gitlabServer (readM (importResourceData "DB_PASS"))
                   dbPassStore) = Returned (d', []) ∧
        fieldsOf d' {| gitlab.Key := "DB_PASS"; gitlab.Value := "secret";
                       gitlab.VariableType := "env_var";
                       gitlab.Protected := true; gitlab.Masked := true |} ∧
        Id d' = "DB_PASS".
Proof.
  apply (read_success_overwrites_fields gitlabServer
           augmentVariableClientError_model (importResourceData "DB_PASS")
           dbPassStore dbPassStore _ (status 200)).
  vm_compute; reflexivity.
Defined.

(** C9: the error branch of Read reads the status code of the response
    without checking that there is one.  Against a service whose connection
    is down the get call returns an error and no response: Read panics on the
    nil dereference, where Create, Update and Delete return the augmented
    diagnostics of the same error. *)
Theorem read_panics_without_response :
  unreachable (gitlab.GetVariable (Id dbPass)) tt
    = ((None, None, Some "dial tcp: connection refused"), tt) ∧
  outcome (run unreachable (readM dbPass) tt)
    = Panicked "invalid memory address or nil pointer dereference" ∧
  outcome (run unreachable (createM dbPass) tt)
    = Returned (dbPass, diag.FromErr "dial tcp: connection refused") ∧
  outcome (run unreachable (updateM dbPass) tt)
    = Returned (dbPass, diag.FromErr "dial tcp: connection refused") ∧
  outcome (run unreachable (deleteM dbPass) tt)
    = Returned (dbPass, diag.FromErr "dial tcp: connection refused").
Proof.
  split; [reflexivity |]. split.
  - apply (read_error_branch unreachable augmentVariableClientError_model
             dbPass tt tt None None "dial tcp: connection refused");
      reflexivity.
  - repeat split; vm_compute; reflexivity.
Qed.

(** C2 at the spec's example configuration, created on an empty service. *)
Lemma create_error_or_read_witness :
  conforms (newResourceData dbPassConfig) ∧
  ∃ d1, d1 = SetId (newResourceData dbPassConfig) "DB_PASS" ∧
        Id d1 = "DB_PASS" ∧
        outcome (run gitlabServer (createM (newResourceData dbPassConfig)) ∅)
          = outcome (run gitlabServer (readM d1) dbPassStore).
Proof.
  split; [compute_done |].
  pose (q := gitlab.CreateVariable
               (createOptions stringToVariableType_model
                  (newResourceData dbPassConfig))).
  destruct (create_error_or_read gitlabServer stringToVariableType_model
              augmentVariableClientError_model (newResourceData dbPassConfig)
              ∅ (gitlabServer q ∅).2 (gitlabServer q ∅).1.1.1
              (gitlabServer q ∅).1.1.2 None) as [_ H];
    [compute_done | vm_compute; reflexivity |].
  destruct (H eq_refl) as (d1 & -> & Hid & Ho & _).
  eexists. split; [reflexivity |]. split; [exact Hid |]. exact Ho.
Defined.

(** C7 at a configuration with only the key and the value. *)
Lemma create_uses_schema_defaults_witness :
  wellTyped minimalConfig ∧
  ∃ opt rest,
    requests (run gitlabServer (createM (newResourceData minimalConfig)) ∅)
      = gitlab.CreateVariable opt :: rest ∧
    gitlab.CreateInstanceVariableOptions.VariableType opt = Some "env_var" ∧
    gitlab.CreateInstanceVariableOptions.Protected opt = Some false ∧
    gitlab.CreateInstanceVariableOptions.Masked opt = Some false.
Proof.
  split; [compute_done |].
  destruct (create_uses_schema_defaults gitlabServer stringToVariableType_model
              augmentVariableClientError_model minimalConfig ∅)
    as (opt & rest & Hq & Hvt & Hp & Hm); [compute_done |].
  exists opt, rest. split; [exact Hq |].
  split; [exact (proj2 (Hvt eq_refl)) |].
  split; [exact (proj2 (Hp eq_refl)) | exact (proj2 (Hm eq_refl))].
Defined.

(** C3 at the variable [DB_PASS], updated on a service that holds it. *)
Lemma update_payload_excludes_key_witness :
  conforms dbPass ∧
  ∃ rest,
    requests (run gitlabServer (updateM dbPass) dbPassStore) =
    gitlab.UpdateVariable "DB_PASS"
      {| gitlab.UpdateInstanceVariableOptions.Value := Some "secret";
         gitlab.UpdateInstanceVariableOptions.VariableType := Some "env_var";
         gitlab.UpdateInstanceVariableOptions.Protected := Some true;
         gitlab.UpdateInstanceVariableOptions.Masked := Some true |} :: rest.
Proof.
  split; [compute_done |].
  exact (proj1 (update_payload_excludes_key gitlabServer
                  stringToVariableType_model augmentVariableClientError_model
                  dbPass dbPassStore ltac:(compute_done))).
Defined.

(** C5 at the variable [DB_PASS], deleted on a service that holds it. *)
Lemma delete_keyed_by_identifier_witness :
  conforms dbPass ∧
  identityIsKey dbPass ∧
  requests (run gitlabServer (deleteM dbPass) dbPassStore)
    = [gitlab.RemoveVariable "DB_PASS"] ∧
  outcome (run gitlabServer (deleteM dbPass) dbPassStore)
    = Returned (dbPass, []).
Proof.
  split; [compute_done |]. split; [vm_compute; reflexivity |].
  destruct (delete_keyed_by_identifier gitlabServer
              augmentVariableClientError_model dbPass dbPassStore
              ltac:(compute_done) ltac:(vm_compute; reflexivity))
    as (Hq & _ & _ & Hok).
  split; [exact Hq |].
  apply (Hok (status 204) ∅). vm_compute; reflexivity.
Defined.

(** C4 at the spec's example: the variable is created and read back, and
    the five fields come back as supplied. *)
Lemma create_then_read_round_trip_witness :
  faithful gitlabServer ∧
  conforms (newResourceData dbPassConfig) ∧
  ∃ d', run gitlabServer (createM (newResourceData dbPassConfig)) ∅ =
          {| outcome := Returned (d', []);
             remote := dbPassStore;
             requests :=
               [ gitlab.CreateVariable
                   {| gitlab.CreateInstanceVariableOptions.Key := Some "DB_PASS";
                      gitlab.CreateInstanceVariableOptions.Value := Some "secret";
                      gitlab.CreateInstanceVariableOptions.VariableType :=
                        Some "env_var";
                      gitlab.CreateInstanceVariableOptions.Protected := Some true;
                      gitlab.CreateInstanceVariableOptions.Masked := Some true |};
                 gitlab.GetVariable "DB_PASS" ] |} ∧
        Id d' = "DB_PASS" ∧
        Get d' "key" = Some (VString "DB_PASS") ∧
        Get d' "value" = Some (VString "secret") ∧
        Get d' "variable_type" = Some (VString "env_var") ∧
        Get d' "protected" = Some (VBool true) ∧
        Get d' "masked" = Some (VBool true).
Proof.
  split; [exact gitlabServer_faithful |]. split; [compute_done |].
  pose (q := gitlab.CreateVariable
               (createOptions stringToVariableType_model
                  (newResourceData dbPassConfig))).
  destruct (create_then_read_round_trip gitlabServer stringToVariableType_model
              augmentVariableClientError_model (newResourceData dbPassConfig)
              ∅ (gitlabServer q ∅).2 (gitlabServer q ∅).1.1.1
              (gitlabServer q ∅).1.1.2)
    as (d' & v' & resp' & r'' & Hget & Hrun & _ & Hid & _
        & Hk & Hv & Ht & Hp & Hm);
    [exact gitlabServer_faithful | compute_done | vm_compute; reflexivity
    | vm_compute; reflexivity |].
  exists d'.
  split.
  { assert (Hr : r'' = dbPassStore).
    { apply (f_equal snd) in Hget. cbn [snd] in Hget. rewrite <- Hget.
      vm_compute; reflexivity. }
    rewrite Hrun, Hr. vm_compute; reflexivity. }
  split; [exact Hid |].
  split; [exact Hk |]. split; [exact Hv |]. split; [exact Ht |].
  split; [exact Hp | exact Hm].
Defined.

(** C10 at the spec's example, created on an empty service. *)
Lemma successful_operation_identity_is_key_witness :
  keyed gitlabServer ∧
  conforms (newResourceData dbPassConfig) ∧
  ∀ d',
    outcome (run gitlabServer (createM (newResourceData dbPassConfig)) ∅)
      = Returned (d', []) →
    (∃ k r1 v rp err r2,
       getCall gitlabServer stringToVariableType_model Create
         (newResourceData dbPassConfig) ∅ = Some (k, r1) ∧
       gitlabServer (gitlab.GetVariable k) r1 = ((v, Some rp, Some err), r2) ∧
       gitlab.StatusCode rp = http.StatusNotFound ∧
       d' = SetId (newResourceData dbPassConfig) "") ∨
    (identityIsKey d' ∧
     Id d' = getString (newResourceData dbPassConfig) "key").
Proof.
  split; [exact gitlabServer_keyed |]. split; [compute_done |].
  exact (proj2 (successful_operation_identity_is_key gitlabServer
                  stringToVariableType_model augmentVariableClientError_model
                  Create (newResourceData dbPassConfig) ∅
                  gitlabServer_keyed
                  ltac:(discriminate) ltac:(compute_done)
                  ltac:(discriminate))).
Defined.

(** C10 fails as stated: Read of [DB_PASS] against a service that does not
    hold it returns no diagnostic, and leaves an empty identity next to the
    key field [DB_PASS]. *)
Lemma read_not_found_breaks_identity_is_key :
  identityIsKey dbPass ∧
  ∃ d', outcome (run gitlabServer (readM dbPass) ∅) = Returned (d', []) ∧
        Id d' = "" ∧
        getString d' "key" = "DB_PASS" ∧
        ¬ identityIsKey d'.
Proof.
  split; [vm_compute; reflexivity |].
  exists (SetId dbPass "").
  split; [vm_compute; reflexivity |]. split; [reflexivity |].
  split; [vm_compute; reflexivity |]. vm_compute. discriminate.
Qed.

(** * Further properties of the handlers *)

Lemma readFields_stores (d : ResourceData) (v : gitlab.InstanceVariable) :
  readFields d v =
  {| Id := Id d;
     attrs := <[ "masked" := VBool (gitlab.Masked v) ]>
              (<[ "protected" := VBool (gitlab.Protected v) ]>
              (<[ "variable_type" := VString (gitlab.VariableType v) ]>
              (<[ "value" := VString (gitlab.Value v) ]>
              (<[ "key" := VString (gitlab.Key v) ]> (attrs d))))) |}.
Proof. unfold readFields. by rewrite !Set_stores. Qed.

Lemma readFields_idempotent (d : ResourceData) (v : gitlab.InstanceVariable) :
  readFields (readFields d v) v = readFields d v.
Proof.
  rewrite (readFields_stores (readFields d v)), (readFields_stores d).
  cbn [Id attrs]. f_equal. apply map_eq. intros k.
  rewrite !lookup_insert. by repeat case_decide.
Qed.

Lemma gitlabServer_responsive : responsive gitlabServer.
Proof.
  intros k r v resp err r'. cbn.
  destruct (r !! k); intros [= <- <- <- _]; by eexists.
Qed.

Lemma gitlabServer_removalEffective : removalEffective gitlabServer.
Proof.
  intros k r resp r'. cbn. destruct (r !! k) eqn:E; [| discriminate].
  intros [= _ <-]. rewrite lookup_delete_eq. by repeat eexists.
Qed.

Lemma gitlabServer_faithfulUpdate : faithfulUpdate gitlabServer.
Proof.
  intros k opt r v resp r'. cbn. destruct (r !! k) as [s|] eqn:E; [| discriminate].
  intros [= _ _ <-].
  exists (toVariable k (updated opt s)), (status 200), (<[k:=updated opt s]> r).
  rewrite lookup_insert_eq. split; [done |]. split; [done |].
  unfold updated. cbn. repeat split; by intros x ->.
Qed.

Section Extras.

Context {R : Type} (c : Client R).
Variable stringToVariableType : string → option gitlab.VariableTypeValue.
Variable augmentVariableClientError :
  ResourceData → gitlab.error → diag.Diagnostics.

Abbreviation read := (resourceGitlabInstanceVariableRead augmentVariableClientError).
Abbreviation create :=
  (resourceGitlabInstanceVariableCreate
     stringToVariableType augmentVariableClientError).
Abbreviation update :=
  (resourceGitlabInstanceVariableUpdate
     stringToVariableType augmentVariableClientError).
Abbreviation delete_ :=
  (resourceGitlabInstanceVariableDelete augmentVariableClientError).
Abbreviation handle :=
  (handler stringToVariableType augmentVariableClientError).

(** X1: when the get call of Read returns an error with a response whose
    status is not 404, Read returns the augmented diagnostics of that error
    and leaves the resource data, its identity included, as it was. *)
Theorem read_other_error_returns_diagnostics
    (d : ResourceData) (r r' : R)
    (v : option gitlab.InstanceVariable) (resp : gitlab.Response)
    (err : gitlab.error) :
  c (gitlab.GetVariable (Id d)) r = ((v, Some resp, Some err), r') →
  gitlab.StatusCode resp ≠ http.StatusNotFound →
  run c (read d) r =
  {| outcome := Returned (d, augmentVariableClientError d err);
     remote := r';
     requests := [gitlab.GetVariable (Id d)] |}.
Proof.
  intros Hget Hne. rewrite run_read, Hget. cbn [fst snd]. f_equal.
  unfold afterGet. destruct v; by rewrite decide_False.
Qed.

(** X2: the calls of every operation.  Each operation starts with its own
    call; Create and Update follow it with the get call of Read exactly when
    their own call returned no error, Create under the key field and Update
    under the identity; Read and Delete make no second call. *)
Theorem handler_requests (op : Operation) (d : ResourceData) (r : R) :
  conforms d →
  requests (run c (handle op d) r) =
  firstRequest stringToVariableType op d ::
  match op, replyError (c (firstRequest stringToVariableType op d) r).1 with
  | Create, None => [gitlab.GetVariable (getString d "key")]
  | Update, None => [gitlab.GetVariable (Id d)]
  | _, _ => []
  end.
Proof.
  intros Hd. destruct op; cbn [handler firstRequest replyError].
  - rewrite run_create by done. cbn zeta.
    destruct (c (gitlab.CreateVariable _) r) as [[[? ?] [?|]] ?];
      cbn [fst snd requests]; [done |]. by rewrite run_read.
  - rewrite run_read. cbn [requests].
    by destruct ((c (gitlab.GetVariable (Id d)) r).1.2).
  - rewrite run_update by done. cbn zeta.
    destruct (c (gitlab.UpdateVariable _ _) r) as [[[? ?] [?|]] ?];
      cbn [fst snd requests]; [done |]. by rewrite run_read.
  - rewrite run_delete by done. cbn zeta. cbn [requests].
    by destruct ((c (gitlab.RemoveVariable (getString d "key")) r).1.2).
Qed.

(** X3: if the update call returns an error, Update returns the augmented
    diagnostics of that error, makes no other call and leaves the resource
    data as it was; if the call succeeds, the result of Update is that of
    Read on the same resource data, run on the state the update left. *)
Theorem update_error_or_read
    (d : ResourceData) (r r' : R)
    (v : option gitlab.InstanceVariable) (resp : option gitlab.Response)
    (oerr : option gitlab.error) :
  conforms d →
  c (gitlab.UpdateVariable (getString d "key")
       (updateOptions stringToVariableType d)) r
    = ((v, resp, oerr), r') →
  (∀ err, oerr = Some err →
     run c (update d) r =
     {| outcome := Returned (d, augmentVariableClientError d err);
        remote := r';
        requests :=
          [gitlab.UpdateVariable (getString d "key")
             (updateOptions stringToVariableType d)] |}) ∧
  (oerr = None →
     outcome (run c (update d) r) = outcome (run c (read d) r') ∧
     remote (run c (update d) r) = remote (run c (read d) r')).
Proof.
  intros Hd Hcall. rewrite run_update by done. cbn zeta. rewrite Hcall.
  split; [by intros err -> | by intros ->].
Qed.

(** X4: against a service that sends a response with every error of the get
    call and a variable with every success, no operation panics on a
    resource data of the schema's types: each returns a resource data and
    diagnostics. *)
Theorem handlers_return (op : Operation) (d : ResourceData) (r : R) :
  responsive c →
  conforms d →
  ∃ d' g, outcome (run c (handle op d) r) = Returned (d', g).
Proof.
  intros Hc Hd.
  assert (Hread : ∀ d0 r0, ∃ d' g,
            outcome (run c (read d0) r0) = Returned (d', g)).
  { intros d0 r0. rewrite run_read. cbn [outcome].
    destruct (c (gitlab.GetVariable (Id d0)) r0) as [[[v resp] err] r1] eqn:Eg.
    apply Hc in Eg. unfold afterGet. cbn [fst].
    destruct err as [err|], Eg as [x ->].
    - destruct v; case_decide; by eauto.
    - destruct resp; by eauto. }
  destruct op; cbn [handler].
  - rewrite run_create by done. cbn zeta.
    destruct (c (gitlab.CreateVariable _) r) as [[[? ?] [?|]] ?];
      cbn [fst snd outcome]; by eauto.
  - apply Hread.
  - rewrite run_update by done. cbn zeta.
    destruct (c (gitlab.UpdateVariable _ _) r) as [[[? ?] [?|]] ?];
      cbn [fst snd outcome]; by eauto.
  - rewrite run_delete by done. by eauto.
Qed.

(** X6: Delete, then Read.  On a service where removal is effective, after a
    Delete whose remove call succeeded on a resource data identified by its
    key, Read on the state Delete left clears the identity and returns no
    diagnostic. *)
Theorem delete_then_read_clears_identity
    (d : ResourceData) (r r' : R) (resp : option gitlab.Response) :
  removalEffective c →
  conforms d →
  identityIsKey d →
  c (gitlab.RemoveVariable (getString d "key")) r = ((resp, None), r') →
  outcome (run c (delete_ d) r) = Returned (d, []) ∧
  outcome (run c (read d) (remote (run c (delete_ d) r)))
    = Returned (SetId d "", []).
Proof.
  intros Hc Hd Hinv Hrm. rewrite run_delete by done. cbn zeta.
  rewrite Hrm. cbn [fst snd outcome remote]. split; [done |].
  destruct (Hc _ _ _ _ Hrm) as (v & rp & err & r'' & Hget & H404).
  rewrite run_read. cbn [outcome]. rewrite Hinv, Hget. cbn [fst].
  unfold afterGet. destruct v; by rewrite decide_True.
Qed.

(** X7: Update, then Read.  Against a service faithful to what it was asked
    to update, an Update whose call succeeds on a resource data identified by
    its key, with a variable type the provider accepts, sends the four fields
    in the update call under the key, reads the variable back under the
    identity, and ends with no diagnostic, the identity unchanged and the
    five local fields written from the fetched variable and equal to the
    ones it was given. *)
Theorem update_then_read_round_trip
    (d : ResourceData) (r r' : R)
    (v : option gitlab.InstanceVariable) (resp : option gitlab.Response) :
  faithfulUpdate c →
  conforms d →
  identityIsKey d →
  stringToVariableType (getString d "variable_type")
    = Some (getString d "variable_type") →
  c (gitlab.UpdateVariable (getString d "key")
       (updateOptions stringToVariableType d)) r
    = ((v, resp, None), r') →
  ∃ d' v' resp' r'',
    c (gitlab.GetVariable (Id d)) r' = ((Some v', resp', None), r'') ∧
    run c (update d) r =
      {| outcome := Returned (d', []);
         remote := r'';
         requests :=
           [ gitlab.UpdateVariable (getString d "key")
               {| gitlab.UpdateInstanceVariableOptions.Value :=
                    Some (getString d "value");
                  gitlab.UpdateInstanceVariableOptions.VariableType :=
                    Some (getString d "variable_type");
                  gitlab.UpdateInstanceVariableOptions.Protected :=
                    Some (getBool d "protected");
                  gitlab.UpdateInstanceVariableOptions.Masked :=
                    Some (getBool d "masked") |};
             gitlab.GetVariable (Id d) ] |} ∧
    fieldsOf d' v' ∧
    Id d' = Id d ∧
    Get d' "key" = Get d "key" ∧
    Get d' "value" = Get d "value" ∧
    Get d' "variable_type" = Get d "variable_type" ∧
    Get d' "protected" = Get d "protected" ∧
    Get d' "masked" = Get d "masked".
Proof.
  intros Hf Hd Hinv Hvt Hcall.
  destruct (Hf _ _ _ _ _ _ Hcall)
    as (v' & resp' & r'' & Hget & Hk & Hv & Ht & Hp & Hm).
  rewrite <- Hinv in Hget.
  exists (readFields d v'), v', resp', r''.
  split; [exact Hget |].
  split.
  { rewrite run_update by done. cbn zeta. rewrite Hcall. cbn [fst snd].
    rewrite run_read. cbn [outcome remote requests]. rewrite Hget.
    cbn [fst snd]. unfold updateOptions. rewrite Hvt.
    f_equal. by destruct resp'. }
  pose proof (readFields_fieldsOf d v') as (Fk & Fv & Ft & Fp & Fm).
  split; [done |].
  split; [by rewrite readFields_Id |].
  rewrite Hk in Fk. rewrite (Hv _ eq_refl) in Fv. rewrite (Ht _ Hvt) in Ft.
  rewrite (Hp _ eq_refl) in Fp. rewrite (Hm _ eq_refl) in Fm.
  rewrite Fk, Fv, Ft, Fp, Fm.
  by rewrite (Get_string d "key"), (Get_string d "value"),
    (Get_string d "variable_type"), (Get_bool d "protected"),
    (Get_bool d "masked") by auto.
Qed.

(** X8: Read is idempotent.  If the service returns the same variable for
    the identity again, a second Read returns the very resource data the
    first one returned. *)
Theorem read_idempotent
    (d : ResourceData) (r r' r'' : R) (v : gitlab.InstanceVariable)
    (resp resp' : option gitlab.Response) :
  c (gitlab.GetVariable (Id d)) r = ((Some v, resp, None), r') →
  c (gitlab.GetVariable (Id d)) r' = ((Some v, resp', None), r'') →
  ∃ d1, outcome (run c (read d) r) = Returned (d1, []) ∧
        outcome (run c (read d1) r') = Returned (d1, []).
Proof.
  intros H1 H2. exists (readFields d v).
  rewrite !run_read. cbn [outcome]. rewrite readFields_Id, H1, H2.
  unfold afterGet. cbn [fst]. rewrite readFields_idempotent.
  by destruct resp, resp'.
Qed.

(** X9: Create and Update return success with the identity cleared when the
    get call that follows their own successful call answers not-found: the
    resource data comes back with an empty identity, its fields untouched,
    and no diagnostic. *)
Theorem write_then_not_found_clears_identity
    (op : Operation) (d : ResourceData) (r r'' : R)
    (v' : option gitlab.InstanceVariable)
    (rp : gitlab.Response) (err : gitlab.error) :
  op = Create ∨ op = Update →
  conforms d →
  replyError (c (firstRequest stringToVariableType op d) r).1 = None →
  c (gitlab.GetVariable
       (match op with Create => getString d "key" | _ => Id d end))
    (c (firstRequest stringToVariableType op d) r).2
    = ((v', Some rp, Some err), r'') →
  gitlab.StatusCode rp = http.StatusNotFound →
  outcome (run c (handle op d) r) = Returned (SetId d "", []).
Proof.
  intros [-> | ->] Hd Hcall Hget H404;
    cbn [handler firstRequest replyError] in *.
  - rewrite run_create by done. cbn zeta. rewrite Hcall. cbn [outcome].
    rewrite run_read. cbn [outcome Id SetId]. rewrite Hget. cbn [fst].
    unfold afterGet. destruct v'; by rewrite decide_True.
  - rewrite run_update by done. cbn zeta. rewrite Hcall. cbn [outcome].
    rewrite run_read. cbn [outcome]. rewrite Hget. cbn [fst].
    unfold afterGet. destruct v'; by rewrite decide_True.
Qed.

End Extras.

(** ** The further properties on the models of the service *)

(** X1 at a service that refuses every call with status 403. *)
Lemma read_other_error_returns_diagnostics_witness :
  refusing 403 (gitlab.GetVariable (Id dbPass)) tt
    = ((None, status 403, Some "request refused"), tt) ∧
  run (refusing 403) (readM dbPass) tt =
  {| outcome := Returned (dbPass, diag.FromErr "request refused");
     remote := tt;
     requests := [gitlab.GetVariable "DB_PASS"] |}.
Proof.
  split; [reflexivity |].
  apply (read_other_error_returns_diagnostics (refusing 403)
           augmentVariableClientError_model dbPass tt tt None
           {| gitlab.StatusCode := 403 |} "request refused");
    [reflexivity | vm_compute; discriminate].
Defined.

(** X2 at the spec's example configuration, created on an empty service:
    the create call, then the get call under the key. *)
Lemma handler_requests_witness :
  conforms (newResourceData dbPassConfig) ∧
  requests (run gitlabServer (createM (newResourceData dbPassConfig)) ∅) =
  [ gitlab.CreateVariable
      (createOptions stringToVariableType_model (newResourceData dbPassConfig));
    gitlab.GetVariable "DB_PASS" ].
Proof.
  split; [compute_done |].
  refine (eq_trans
            (handler_requests gitlabServer stringToVariableType_model
               augmentVariableClientError_model Create
               (newResourceData dbPassConfig) ∅ ltac:(compute_done)) _).
  vm_compute; reflexivity.
Defined.

(** X3 at the variable [DB_PASS], updated on a service that does not hold
    it. *)
Lemma update_error_or_read_witness :
  conforms dbPass ∧
  run gitlabServer (updateM dbPass) ∅ =
  {| outcome := Returned (dbPass, diag.FromErr "404 Not Found");
     remote := ∅;
     requests :=
       [gitlab.UpdateVariable "DB_PASS"
          (updateOptions stringToVariableType_model dbPass)] |}.
Proof.
  split; [compute_done |].
  destruct (update_error_or_read gitlabServer stringToVariableType_model
              augmentVariableClientError_model dbPass ∅ ∅ None (status 404)
              (Some "404 Not Found")) as [H _];
    [compute_done | vm_compute; reflexivity |].
  exact (H _ eq_refl).
Defined.

(** X4 at Read of [DB_PASS] on the model of the service. *)
Lemma handlers_return_witness :
  responsive gitlabServer ∧
  conforms dbPass ∧
  ∃ d' g, outcome (run gitlabServer (readM dbPass) dbPassStore)
            = Returned (d', g).
Proof.
  split; [exact gitlabServer_responsive |]. split; [compute_done |].
  exact (handlers_return gitlabServer stringToVariableType_model
           augmentVariableClientError_model Read dbPass dbPassStore
           gitlabServer_responsive ltac:(compute_done)).
Defined.

(** X6 at the variable [DB_PASS], deleted on a service that holds it. *)
Lemma delete_then_read_clears_identity_witness :
  removalEffective gitlabServer ∧
  conforms dbPass ∧
  identityIsKey dbPass ∧
  outcome (run gitlabServer (deleteM dbPass) dbPassStore)
    = Returned (dbPass, []) ∧
  outcome (run gitlabServer (readM dbPass)
             (remote (run gitlabServer (deleteM dbPass) dbPassStore)))
    = Returned (SetId dbPass "", []).
Proof.
  split; [exact gitlabServer_removalEffective |]. split; [compute_done |].
  split; [vm_compute; reflexivity |].
  apply (delete_then_read_clears_identity gitlabServer
           augmentVariableClientError_model dbPass dbPassStore ∅ (status 204));
    [ exact gitlabServer_removalEffective | compute_done
    | vm_compute; reflexivity | vm_compute; reflexivity ].
Defined.

(** X7 at the variable [DB_PASS], updated on a service that holds it. *)
Lemma update_then_read_round_trip_witness :
  faithfulUpdate gitlabServer ∧
  conforms dbPass ∧
  identityIsKey dbPass ∧
  ∃ d', run gitlabServer (updateM dbPass) dbPassStore =
          {| outcome := Returned (d', []);
             remote := dbPassStore;
             requests :=
               [ gitlab.UpdateVariable "DB_PASS"
                   {| gitlab.UpdateInstanceVariableOptions.Value := Some "secret";
                      gitlab.UpdateInstanceVariableOptions.VariableType :=
                        Some "env_var";
                      gitlab.UpdateInstanceVariableOptions.Protected := Some true;
                      gitlab.UpdateInstanceVariableOptions.Masked := Some true |};
                 gitlab.GetVariable "DB_PASS" ] |} ∧
        Id d' = "DB_PASS" ∧
        Get d' "key" = Some (VString "DB_PASS") ∧
        Get d' "value" = Some (VString "secret") ∧
        Get d' "variable_type" = Some (VString "env_var") ∧
        Get d' "protected" = Some (VBool true) ∧
        Get d' "masked" = Some (VBool true).
Proof.
  split; [exact gitlabServer_faithfulUpdate |]. split; [compute_done |].
  split; [vm_compute; reflexivity |].
  pose (q := gitlab.UpdateVariable "DB_PASS"
               (updateOptions stringToVariableType_model dbPass)).
  destruct (update_then_read_round_trip gitlabServer stringToVariableType_model
              augmentVariableClientError_model dbPass dbPassStore
              (gitlabServer q dbPassStore).2 (gitlabServer q dbPassStore).1.1.1
              (gitlabServer q dbPassStore).1.1.2
              gitlabServer_faithfulUpdate ltac:(compute_done)
              ltac:(vm_compute; reflexivity) ltac:(vm_compute; reflexivity)
              ltac:(vm_compute; reflexivity))
    as (d' & v' & resp' & r'' & Hget & Hrun & _ & Hid & Hk & Hv & Ht & Hp & Hm).
  exists d'.
  split.
  { assert (Hr : r'' = dbPassStore).
    { apply (f_equal snd) in Hget. cbn [snd] in Hget. rewrite <- Hget.
      vm_compute; reflexivity. }
    rewrite Hrun, Hr. vm_compute; reflexivity. }
  split; [exact Hid |].
  split; [exact Hk |]. split; [exact Hv |]. split; [exact Ht |].
  split; [exact Hp | exact Hm].
Defined.

(** X8 at an import of [DB_PASS] read twice on a service that holds it. *)
Lemma read_idempotent_witness :
  ∃ d1, outcome (run gitlabServer (readM (importResourceData "DB_PASS"))
                   dbPassStore) = Returned (d1, []) ∧
        outcome (run gitlabServer (readM d1) dbPassStore) = Returned (d1, []).
Proof.
  apply (read_idempotent gitlabServer augmentVariableClientError_model
           (importResourceData "DB_PASS") dbPassStore dbPassStore dbPassStore
           (toVariable "DB_PASS"
              {| storedValue := "secret"; storedType := "env_var";
                 storedProtected := true; storedMasked := true |})
           (status 200) (status 200));
    vm_compute; reflexivity.
Defined.

(** X9 at the spec's example configuration, created on a service that holds
    nothing. *)
Lemma write_then_not_found_clears_identity_witness :
  conforms (newResourceData dbPassConfig) ∧
  outcome (run forgetful (createM (newResourceData dbPassConfig)) tt)
    = Returned (SetId (newResourceData dbPassConfig) "", []).
Proof.
  split; [compute_done |].
  apply (write_then_not_found_clears_identity forgetful
           stringToVariableType_model augmentVariableClientError_model
           Create (newResourceData dbPassConfig) tt tt None
           {| gitlab.StatusCode := 404 |} "404 Not Found");
    [ by left | compute_done | reflexivity | reflexivity | reflexivity ].
Defined.
